(** * The LLM configuration store of [example_backend/llm_config.py]

    The module keeps two pieces of process-wide state, the active system
    prompt and the dict of model parameters, and offers five functions on
    them.  This file embeds the module in Rocq and proves the properties its
    specification states.

    Modelling choices, all following the Python source:
    - Python values are dynamically typed: [value] is a sum of the kinds of
      value the module can be handed; binary64 floats are Rocq's primitive
      floats, so [0.7] below is the same double as Python's [0.7].
    - Dict objects have identity.  The module global [llm_config] names one
      dict object that [update_llm_config] mutates in place, and every call
      of [get_llm_config] builds a new dict object.  The [store] therefore
      has a heap of dict objects, and the global is a location in it.
    - Values are stored and copied by reference.  A mutable object that a
      caller created and still holds (a list, a nested dict) is a cell of
      the store's [objects], and the value that travels is a reference
      [VRef] to it: the store and a record returned by [get_llm_config]
      may hold the same reference.
    - A call either returns or raises; the functions live in a small state
      and exception monad [M]. *)

From Stdlib Require Import PrimFloat.
From stdpp Require Import gmap strings list fin_maps.

Set Warnings "-inexact-float,-register-all".

(** ** Python values *)

Definition loc := positive.

(** [VList] and [VDict] give a list or a dict by its contents: the form of
    an object that is only read, as the module reads the argument of
    [update_llm_config], and the form of the contents of a cell of
    [objects].  [VRef a] is a reference to the mutable object in cell [a]:
    two occurrences of [VRef a] are the same Python object, and a mutation
    in place of that object is seen through both.  Keys are strings: every
    key the module writes or looks up is one. *)
Inductive value :=
  | VNone
  | VBool (b : bool)
  | VInt (z : Z)
  | VFloat (f : float)
  | VStr (s : string)
  | VList (xs : list value)
  | VDict (d : gmap string value)
  | VRef (a : loc).

Abbreviation pydict := (gmap string value).

Inductive exn :=
  | AttributeError.

Inductive result (A : Type) :=
  | Returned (a : A)
  | Raised (e : exn).
Arguments Returned {A} a.
Arguments Raised {A} e.

(** ** Module state *)

Record store := mkStore {
  heap : gmap loc pydict;          (* the dict objects alive in the process *)
  current_system_prompt : value;   (* module global *)
  llm_config : loc;                (* module global: names a dict object *)
  objects : gmap loc value         (* the callers' mutable objects, by contents *)
}.

Definition with_prompt (p : value) (s : store) : store :=
  mkStore (heap s) p (llm_config s) (objects s).

Definition with_heap (h : gmap loc pydict) (s : store) : store :=
  mkStore h (current_system_prompt s) (llm_config s) (objects s).


(** The contents of the dict object named by a location. *)
Definition deref (l : loc) (s : store) : pydict := heap s !!! l.

(** The model parameters: the contents of the dict [llm_config] names. *)
Definition params (s : store) : pydict := deref (llm_config s) s.

(** A store is well formed when the global names an object of the heap. *)
Definition wf_store (s : store) : Prop := is_Some (heap s !! llm_config s).

(** ** The monad of module functions *)

Definition M (A : Type) : Type := store → result A * store.

Definition ret {A} (a : A) : M A := λ s, (Returned a, s).

Definition raise {A} (e : exn) : M A := λ s, (Raised e, s).

Definition bind {A B} (c : M A) (k : A → M B) : M B := λ s,
  match c s with
  | (Returned a, s') => k a s'
  | (Raised e, s') => (Raised e, s')
  end.

Declare Scope py_scope.
Delimit Scope py_scope with py.
Notation "'let*' x := c 'in' k" := (bind c (λ x, k))
  (at level 10, x name, c at level 100, k at level 200,
   only parsing) : py_scope.
Notation "'exec' c 'in' k" := (bind c (λ _, k))
  (at level 10, c at level 100, k at level 200, only parsing) : py_scope.
Local Open Scope py_scope.

Definition gets {A} (f : store → A) : M A := λ s, (Returned (f s), s).

Definition modify (f : store → store) : M unit := λ s, (Returned tt, f s).

(** [for key, value in items: body] *)
Fixpoint for_each {A} (xs : list A) (body : A → M unit) : M unit :=
  match xs with
  | [] => ret tt
  | x :: xs' => exec body x in for_each xs' body
  end.

(** ** Dict primitives *)

(** [key in d] for the dict object at [l]. *)
Definition dict_contains (l : loc) (key : string) : M bool :=
  gets (λ s, bool_decide (key ∈ dom (deref l s))).

(** [d[key] = v] for the dict object at [l]: mutation in place. *)
Definition dict_setitem (l : loc) (key : string) (v : value) : M unit :=
  modify (λ s, with_heap (<[l := <[key := v]> (deref l s)]> (heap s)) s).

(** A dict display [{...}] evaluates to a new dict object. *)
Definition new_dict (d : pydict) : M loc := λ s,
  let l := fresh (dom (heap s)) in
  (Returned l, with_heap (<[l := d]> (heap s)) s).

(** [v.items()]: only a dict has the method, be it given by its contents
    or by a reference to the object; a reference to a cell that holds no
    dict has none. *)
Definition items (v : value) : M (list (string * value)) :=
  match v with
  | VDict d => ret (map_to_list d)
  | VRef a =>
      let* o := gets (λ s, objects s !! a) in
      match o with
      | Some (VDict d) => ret (map_to_list d)
      | _ => raise AttributeError
      end
  | _ => raise AttributeError
  end.

(** ** The module *)

Definition nl : string := String (Ascii.ascii_of_nat 10) EmptyString.

Definition DEFAULT_SYSTEM_PROMPT : string :=
  String.concat nl
    [ "You are a compassionate and professional healthcare AI assistant conducting patient follow-up calls. Your primary goal is to ensure patient well-being and treatment adherence.";
      EmptyString;
      "Core Responsibilities:";
      "- Build rapport with warm, personalized greetings";
      "- Assess current health status and symptom progression";
      "- Verify medication adherence and address any side effects";
      "- Schedule or confirm upcoming appointments";
      "- Document patient concerns and questions";
      "- Provide clear follow-up instructions";
      EmptyString;
      "Communication Style:";
      "- Use empathetic and patient-centered language";
      "- Listen actively and acknowledge patient concerns";
      "- Speak clearly and avoid medical jargon";
      "- Allow patients to express themselves fully";
      "- Summarize key points for clarity";
      EmptyString;
      "Key Areas to Cover:";
      "1. Personal greeting and rapport building";
      "2. Current symptom assessment";
      "3. Medication review and adherence check";
      "4. Appointment scheduling or confirmation";
      "5. Address patient questions and concerns";
      "6. Provide clear next steps and follow-up plan";
      EmptyString;
      "Remember to maintain HIPAA compliance and patient confidentiality throughout the conversation." ].

(** The dict literal bound to [llm_config] when the module is loaded. *)
Definition initial_llm_config : pydict :=
  <["temperature" := VFloat 0.7]>
  (<["max_tokens" := VInt 2048]>
  (<["top_p" := VFloat 0.9]>
  (<["model" := VStr "gpt-4"]> ∅))).

(** The state right after the module is loaded. *)
Definition init_store : store :=
  mkStore {[ 1%positive := initial_llm_config ]}
          (VStr DEFAULT_SYSTEM_PROMPT)
          1%positive
          ∅.

Definition get_system_prompt : M value :=
  gets current_system_prompt.

Definition set_system_prompt (new_prompt : value) : M bool :=
  exec modify (with_prompt new_prompt) in
  ret true.

(** [{"system_prompt": current_system_prompt, **llm_config}]: the entries of
    [llm_config] are unpacked after the prompt entry, so they win on a
    common key. *)
Definition get_llm_config : M loc :=
  let* prompt := gets current_system_prompt in
  let* cfg := gets params in
  new_dict (cfg ∪ {[ "system_prompt" := prompt ]}).

(** The body of the loop of [update_llm_config], for one [key, value]:
    [if key in llm_config: llm_config[key] = value]. *)
Definition update_entry (kv : string * value) : M unit :=
  let* l := gets llm_config in
  let* present := dict_contains l kv.1 in
  if present : bool then dict_setitem l kv.1 kv.2 else ret tt.

Definition update_llm_config (config_updates : value) : M bool :=
  let* kvs := items config_updates in
  exec for_each kvs update_entry in
  ret true.

Definition reset_to_default : M bool :=
  exec modify (with_prompt (VStr DEFAULT_SYSTEM_PROMPT)) in
  ret true.

(** ** Callers *)

(** The calls a client of the module can make. *)
Inductive call :=
  | GetSystemPrompt
  | SetSystemPrompt (new_prompt : value)
  | GetLlmConfig
  | UpdateLlmConfig (config_updates : value)
  | ResetToDefault.

(** The state a call leaves behind, whether it returned or raised. *)
Definition after (c : call) (s : store) : store :=
  match c with
  | GetSystemPrompt => (get_system_prompt s).2
  | SetSystemPrompt p => (set_system_prompt p s).2
  | GetLlmConfig => (get_llm_config s).2
  | UpdateLlmConfig u => (update_llm_config u s).2
  | ResetToDefault => (reset_to_default s).2
  end.

Definition run (cs : list call) (s : store) : store :=
  foldl (λ s c, after c s) s cs.

(** The states the module can be in: the initial one, and those any
    sequence of calls leads to. *)
Inductive reachable : store → Prop :=
  | reach_init : reachable init_store
  | reach_call c s : reachable s → reachable (after c s).

(** The record a call of [get_llm_config] hands to its caller, read
    through the returned reference. *)
Definition returned_record (s : store) : option pydict :=
  match get_llm_config s with
  | (Returned r, s') => heap s' !! r
  | (Raised _, _) => None
  end.







Definition param_keys : gset string :=
  {[ "temperature"; "max_tokens"; "top_p"; "model" ]}.

Definition config_keys : gset string :=
  {[ "system_prompt"; "temperature"; "max_tokens"; "top_p"; "model" ]}.

(** ** Auxiliary definitions for the proofs *)

(** What one iteration of the loop of [update_llm_config] does to the
    store: [update_entry], unfolded. *)
Definition put_known (kv : string * value) (s : store) : store :=
  if bool_decide (kv.1 ∈ dom (params s))
  then with_heap (<[llm_config s := <[kv.1 := kv.2]> (params s)]> (heap s)) s
  else s.

(** The whole loop, as a fold of its iterations. *)
Definition put_all (kvs : list (string * value)) (s : store) : store :=
  foldl (λ s kv, put_known kv s) s kvs.

(** The dict an argument of [update_llm_config] denotes, if it is one. *)
Definition dict_of (v : value) (s : store) : option pydict :=
  match v with
  | VDict d => Some d
  | VRef a => match objects s !! a with Some (VDict d) => Some d | _ => None end
  | _ => None
  end.


(** The value the calls [cs] last wrote under the key [k] with
    [update_llm_config], if any of them named [k]. *)
Definition last_update (k : string) (cs : list call) : option value :=
  foldl (λ acc c,
           match c with
           | UpdateLlmConfig (VDict u) =>
               match u !! k with Some v => Some v | None => acc end
           | _ => acc
           end) None cs.

(** The prompt the calls [cs] last wrote, with [set_system_prompt] or
    [reset_to_default], starting from [p]. *)
Definition last_prompt (p : value) (cs : list call) : value :=
  foldl (λ p c,
           match c with
           | SetSystemPrompt q => q
           | ResetToDefault => VStr DEFAULT_SYSTEM_PROMPT
           | _ => p
           end) p cs.

(** * Properties *)

(** ** Sanity checks of the transcription *)

Example default_prompt_length : String.length DEFAULT_SYSTEM_PROMPT = 1090%nat.
Proof. vm_compute. reflexivity. Qed.

Example initial_store_wf : wf_store init_store.
Proof. by eexists. Qed.

(** ** The loop of [update_llm_config] *)

Lemma update_entry_eq kv s : update_entry kv s = (Returned tt, put_known kv s).
Proof.
  unfold update_entry, put_known, bind, gets, dict_contains, dict_setitem, modify, ret, params.
  cbn. by case_bool_decide.
Qed.

Lemma for_each_update_entry kvs s :
  for_each kvs update_entry s = (Returned tt, foldl (λ s kv, put_known kv s) s kvs).
Proof.
  revert s. induction kvs as [|kv kvs IH]; intros s; [done|].
  cbn [for_each foldl]. unfold bind at 1. by rewrite update_entry_eq, IH.
Qed.

Lemma put_known_prompt kv s :
  current_system_prompt (put_known kv s) = current_system_prompt s.
Proof. unfold put_known. by case_bool_decide. Qed.

Lemma put_known_llm_config kv s : llm_config (put_known kv s) = llm_config s.
Proof. unfold put_known. by case_bool_decide. Qed.

Lemma put_known_params kv s :
  params (put_known kv s) =
  if bool_decide (kv.1 ∈ dom (params s)) then <[kv.1 := kv.2]> (params s) else params s.
Proof.
  unfold put_known. case_bool_decide; [|done].
  unfold params, deref. cbn. by rewrite lookup_total_insert_eq.
Qed.

Lemma put_known_heap_other kv s l :
  l ≠ llm_config s → heap (put_known kv s) !! l = heap s !! l.
Proof.
  intros Hl. unfold put_known. case_bool_decide; [|done].
  cbn. by rewrite lookup_insert_ne.
Qed.

Lemma put_known_unmatched kv s : kv.1 ∉ dom (params s) → put_known kv s = s.
Proof. intros Hk. unfold put_known. by rewrite bool_decide_eq_false_2. Qed.

Lemma put_known_dom kv s : dom (params (put_known kv s)) = dom (params s).
Proof.
  rewrite put_known_params. case_bool_decide as Hin; [|done].
  rewrite dom_insert_L. apply subseteq_union_1_L.
  by apply singleton_subseteq_l.
Qed.

Lemma put_known_wf kv s : wf_store s → wf_store (put_known kv s).
Proof.
  unfold wf_store, put_known. intros Hwf. case_bool_decide; [|done].
  cbn. rewrite lookup_insert_eq. by eexists.
Qed.

Lemma put_all_cons kv kvs s : put_all (kv :: kvs) s = put_all kvs (put_known kv s).
Proof. done. Qed.

Lemma put_all_prompt kvs s :
  current_system_prompt (put_all kvs s) = current_system_prompt s.
Proof.
  revert s. induction kvs as [|kv kvs IH]; intros s; [done|].
  by rewrite put_all_cons, IH, put_known_prompt.
Qed.

Lemma put_all_llm_config kvs s : llm_config (put_all kvs s) = llm_config s.
Proof.
  revert s. induction kvs as [|kv kvs IH]; intros s; [done|].
  by rewrite put_all_cons, IH, put_known_llm_config.
Qed.

Lemma put_all_heap_other kvs s l :
  l ≠ llm_config s → heap (put_all kvs s) !! l = heap s !! l.
Proof.
  revert s. induction kvs as [|kv kvs IH]; intros s Hl; [done|].
  rewrite put_all_cons, IH by by rewrite put_known_llm_config.
  by apply put_known_heap_other.
Qed.

Lemma put_all_dom kvs s : dom (params (put_all kvs s)) = dom (params s).
Proof.
  revert s. induction kvs as [|kv kvs IH]; intros s; [done|].
  by rewrite put_all_cons, IH, put_known_dom.
Qed.

Lemma put_all_wf kvs s : wf_store s → wf_store (put_all kvs s).
Proof.
  revert s. induction kvs as [|kv kvs IH]; intros s Hwf; [done|].
  rewrite put_all_cons. by apply IH, put_known_wf.
Qed.

Lemma put_all_unmatched kvs s :
  (∀ kv, kv ∈ kvs → kv.1 ∉ dom (params s)) → put_all kvs s = s.
Proof.
  revert s. induction kvs as [|kv kvs IH]; intros s Hno; [done|].
  rewrite put_all_cons, put_known_unmatched by (apply Hno; left).
  apply IH. intros kv' Hin. apply Hno. by right.
Qed.

(** With distinct keys, as the items of a dict have, the order of the
    iterations does not matter: each known key ends with the value the
    items give it, if any, and its old value otherwise. *)
Lemma put_all_lookup kvs s k :
  NoDup kvs.*1 →
  params (put_all kvs s) !! k =
  match params s !! k with
  | Some old => Some (default old ((list_to_map kvs : pydict) !! k))
  | None => None
  end.
Proof.
  revert s. induction kvs as [|[k0 v0] kvs IH]; intros s Hnd.
  { cbn. by destruct (params s !! k). }
  rewrite fmap_cons in Hnd. apply NoDup_cons in Hnd as [Hk0 Hnd].
  rewrite put_all_cons, IH, put_known_params by done.
  cbn [fst snd list_to_map foldr uncurry].
  destruct (decide (k = k0)) as [->|Hne].
  - rewrite lookup_insert_eq.
    rewrite (not_elem_of_list_to_map_1 kvs k0 Hk0).
    case_bool_decide as Hin.
    + rewrite lookup_insert_eq. apply elem_of_dom in Hin as [old ->]. done.
    + apply not_elem_of_dom in Hin. by rewrite Hin.
  - rewrite lookup_insert_ne by done.
    case_bool_decide; [by rewrite lookup_insert_ne|done].
Qed.

(** Python iterates a dict in insertion order; the order cannot be seen in
    the outcome of the loop. *)
Lemma put_all_any_order kvs kvs' s :
  NoDup kvs.*1 → kvs ≡ₚ kvs' →
  params (put_all kvs s) = params (put_all kvs' s).
Proof.
  intros Hnd Hperm. apply map_eq. intros k.
  rewrite !put_all_lookup; [|by rewrite <-Hperm|done].
  by rewrite (list_to_map_proper kvs kvs' Hnd Hperm).
Qed.

(** ** What each function computes *)

Lemma get_system_prompt_eq s :
  get_system_prompt s = (Returned (current_system_prompt s), s).
Proof. done. Qed.

Lemma set_system_prompt_eq p s :
  set_system_prompt p s = (Returned true, with_prompt p s).
Proof. done. Qed.

Lemma reset_to_default_eq s :
  reset_to_default s = (Returned true, with_prompt (VStr DEFAULT_SYSTEM_PROMPT) s).
Proof. done. Qed.

Lemma get_llm_config_eq s :
  get_llm_config s =
  (Returned (fresh (dom (heap s))),
   with_heap (<[fresh (dom (heap s)) :=
                params s ∪ {[ "system_prompt" := current_system_prompt s ]}]> (heap s)) s).
Proof. done. Qed.

Lemma update_llm_config_dict u s :
  update_llm_config (VDict u) s = (Returned true, put_all (map_to_list u) s).
Proof.
  unfold update_llm_config, bind. cbn [items ret].
  by rewrite for_each_update_entry.
Qed.

Lemma returned_record_eq s :
  returned_record s =
  Some (params s ∪ {[ "system_prompt" := current_system_prompt s ]}).
Proof.
  unfold returned_record. rewrite get_llm_config_eq. cbn.
  by rewrite lookup_insert_eq.
Qed.

(** The new dict object is none of the objects alive before the call. *)
Lemma get_llm_config_fresh s : heap s !! fresh (dom (heap s)) = None.
Proof. apply not_elem_of_dom, is_fresh. Qed.

Lemma get_llm_config_params s :
  wf_store s → params (get_llm_config s).2 = params s.
Proof.
  intros Hwf. rewrite get_llm_config_eq. unfold params, deref. cbn.
  rewrite lookup_total_insert_ne; [done|].
  intros Heq. destruct Hwf as [d Hd].
  by rewrite <-Heq, get_llm_config_fresh in Hd.
Qed.

Lemma get_llm_config_wf s : wf_store s → wf_store (get_llm_config s).2.
Proof.
  intros Hwf. rewrite get_llm_config_eq. unfold wf_store. cbn.
  destruct (decide (fresh (dom (heap s)) = llm_config s)) as [->|Hne].
  - rewrite lookup_insert_eq. by eexists.
  - by rewrite lookup_insert_ne.
Qed.

Lemma update_llm_config_state u s :
  (update_llm_config u s).2 =
  match dict_of u s with Some d => put_all (map_to_list d) s | None => s end.
Proof.
  destruct u; try done; [by rewrite update_llm_config_dict|].
  unfold update_llm_config, items, bind, gets, dict_of.
  destruct (objects s !! a) as [[]|]; try done.
  unfold ret. by rewrite for_each_update_entry.
Qed.

Lemma put_known_objects kv s : objects (put_known kv s) = objects s.
Proof. unfold put_known. by case_bool_decide. Qed.

Lemma put_all_objects kvs s : objects (put_all kvs s) = objects s.
Proof.
  revert s. induction kvs as [|kv kvs IH]; intros s; [done|].
  by rewrite put_all_cons, IH, put_known_objects.
Qed.

(** ** Invariants of the calls *)

Lemma after_llm_config c s : llm_config (after c s) = llm_config s.
Proof.
  destruct c; cbn [after]; try done.
  rewrite update_llm_config_state.
  destruct (dict_of _ _); [apply put_all_llm_config|done].
Qed.

Lemma after_wf c s : wf_store s → wf_store (after c s).
Proof.
  intros Hwf. destruct c; cbn [after]; try done.
  - by apply get_llm_config_wf.
  - rewrite update_llm_config_state.
    destruct (dict_of _ _); [by apply put_all_wf|done].
Qed.

Lemma after_dom_params c s :
  wf_store s → dom (params (after c s)) = dom (params s).
Proof.
  intros Hwf. destruct c; cbn [after]; try done.
  - by rewrite get_llm_config_params.
  - rewrite update_llm_config_state.
    destruct (dict_of _ _); [apply put_all_dom|done].
Qed.

Lemma run_snoc cs c s : run (cs ++ [c]) s = after c (run cs s).
Proof. unfold run. by rewrite foldl_app. Qed.

Lemma run_wf cs s : wf_store s → wf_store (run cs s).
Proof.
  revert s. induction cs as [|c cs IH]; intros s Hwf; [done|].
  by apply IH, after_wf.
Qed.


Lemma run_dom_params cs s :
  wf_store s → dom (params (run cs s)) = dom (params s).
Proof.
  revert s. induction cs as [|c cs IH]; intros s Hwf; [done|].
  cbn. unfold run in IH. rewrite IH by by apply after_wf.
  by apply after_dom_params.
Qed.

Lemma initial_param_keys : dom (params init_store) = param_keys.
Proof. vm_compute. reflexivity. Qed.

Lemma reachable_run s : reachable s ↔ ∃ cs, s = run cs init_store.
Proof.
  split.
  - induction 1 as [|c s _ [cs ->]]; [by exists []|].
    exists (cs ++ [c]). by rewrite run_snoc.
  - intros [cs ->]. induction cs as [|c cs IH] using rev_ind; [constructor|].
    rewrite run_snoc. by constructor.
Qed.

Lemma reachable_wf s : reachable s → wf_store s.
Proof. induction 1; [apply initial_store_wf|by apply after_wf]. Qed.

Lemma reachable_param_keys s : reachable s → dom (params s) = param_keys.
Proof.
  induction 1 as [|c s Hs IH]; [apply initial_param_keys|].
  rewrite after_dom_params; [done|by apply reachable_wf].
Qed.

(** ** Examples from the specification *)

Lemma update_empty_noop s : update_llm_config (VDict ∅) s = (Returned true, s).
Proof. by rewrite update_llm_config_dict, map_to_list_empty. Qed.

Lemma update_unknown_key_noop s :
  reachable s →
  update_llm_config (VDict {[ "unknown_key" := VInt 123 ]}) s = (Returned true, s).
Proof.
  intros Hs. rewrite update_llm_config_dict, map_to_list_singleton.
  cbn. rewrite put_known_unmatched; [done|].
  rewrite (reachable_param_keys s Hs).
  apply (bool_decide_eq_false_1 ("unknown_key" ∈ param_keys)).
  vm_compute. reflexivity.
Qed.

Example update_mixed_keys :
  returned_record
    (after (UpdateLlmConfig
              (VDict {[ "temperature" := VFloat 0.2; "unknown_key" := VInt 123 ]}))
           init_store) =
  Some {[ "system_prompt" := VStr DEFAULT_SYSTEM_PROMPT;
          "temperature" := VFloat 0.2;
          "max_tokens" := VInt 2048;
          "top_p" := VFloat 0.9;
          "model" := VStr "gpt-4" ]}.
Proof. vm_compute. reflexivity. Qed.

Example update_with_list_raises :
  update_llm_config (VList [VStr "temperature"; VFloat 0.2]) init_store
    = (Raised AttributeError, init_store).
Proof. reflexivity. Qed.

(** ** Claims *)

(** C1.  For every update mapping [u] and every store, [update_llm_config]
    returns [True]; afterwards every key of [u] that the parameters already
    had holds the supplied value, whatever its type; no key the parameters
    did not have has been added; every parameter that [u] does not name
    keeps its value; and when no key of [u] is a parameter (in particular
    when [u] is empty) the store is left exactly as it was. *)
Theorem update_llm_config_spec (u : pydict) (s : store) :
  ∃ s', update_llm_config (VDict u) s = (Returned true, s') ∧
    (∀ k v, u !! k = Some v → k ∈ dom (params s) → params s' !! k = Some v) ∧
    (∀ k, k ∉ dom (params s) → params s' !! k = None) ∧
    (∀ k, u !! k = None → params s' !! k = params s !! k) ∧
    ((∀ k, k ∈ dom u → k ∉ dom (params s)) → s' = s).
Proof.
  exists (put_all (map_to_list u) s).
  split; [apply update_llm_config_dict|].
  assert (∀ k, params (put_all (map_to_list u) s) !! k =
               match params s !! k with
               | Some old => Some (default old (u !! k))
               | None => None
               end) as Hlook.
  { intros k. rewrite put_all_lookup by apply NoDup_fst_map_to_list.
    by rewrite list_to_map_to_list. }
  repeat split.
  - intros k v Hu [old Hold]%elem_of_dom. by rewrite Hlook, Hold, Hu.
  - intros k Hk%not_elem_of_dom. by rewrite Hlook, Hk.
  - intros k Hu. rewrite Hlook, Hu. by destruct (params s !! k).
  - intros Hno. apply put_all_unmatched.
    intros [k v] Hin%elem_of_map_to_list. apply Hno, elem_of_dom. by eexists.
Qed.

(** C2.  Whatever sequence of calls is made from the initial state, the
    key set of the model parameters is exactly
    [{temperature, max_tokens, top_p, model}]. *)
Theorem param_keys_invariant (cs : list call) :
  dom (params (run cs init_store)) = param_keys.
Proof.
  rewrite run_dom_params by apply initial_store_wf.
  apply initial_param_keys.
Qed.

(** C3.  For every string [X] and every store, [set_system_prompt(X)]
    returns [True] and replaces the stored prompt by [X] whatever it was,
    and [get_system_prompt()] called next returns [X]. *)
Theorem set_then_get_system_prompt (X : string) (s : store) :
  set_system_prompt (VStr X) s = (Returned true, with_prompt (VStr X) s) ∧
  current_system_prompt (with_prompt (VStr X) s) = VStr X ∧
  (exec set_system_prompt (VStr X) in get_system_prompt) s
    = (Returned (VStr X), with_prompt (VStr X) s).
Proof. done. Qed.

(** C4.  For every store, [reset_to_default()] returns [True] and
    [get_system_prompt()] called next returns the default prompt, the one
    the module started with; so it does after any [set_system_prompt]. *)
Theorem reset_restores_default (s : store) :
  (exec reset_to_default in get_system_prompt) s
    = (Returned (VStr DEFAULT_SYSTEM_PROMPT),
       with_prompt (VStr DEFAULT_SYSTEM_PROMPT) s) ∧
  (∀ p, (exec set_system_prompt p in
         exec reset_to_default in get_system_prompt) s
    = (Returned (VStr DEFAULT_SYSTEM_PROMPT),
       with_prompt (VStr DEFAULT_SYSTEM_PROMPT) s)) ∧
  reset_to_default s
    = (Returned true, with_prompt (VStr DEFAULT_SYSTEM_PROMPT) s) ∧
  current_system_prompt init_store = VStr DEFAULT_SYSTEM_PROMPT.
Proof. done. Qed.

(** C5.  In every reachable store, [get_llm_config()] returns a record
    whose keys are exactly
    [{system_prompt, temperature, max_tokens, top_p, model}]. *)
Theorem get_llm_config_keys (s : store) :
  reachable s →
  ∃ rec, returned_record s = Some rec ∧ dom rec = config_keys.
Proof.
  intros Hs. eexists. split; [apply returned_record_eq|].
  rewrite dom_union_L, dom_singleton_L, (reachable_param_keys s Hs).
  unfold param_keys, config_keys. set_solver.
Qed.

Lemma get_llm_config_keys_witness :
  reachable (after (UpdateLlmConfig (VDict {[ "top_p" := VInt 1 ]}))
               (after (SetSystemPrompt VNone) init_store)) ∧
  ∃ rec,
    returned_record (after (UpdateLlmConfig (VDict {[ "top_p" := VInt 1 ]}))
                       (after (SetSystemPrompt VNone) init_store)) = Some rec ∧
    dom rec = config_keys.
Proof.
  split.
  - apply reach_call, reach_call, reach_init.
  - apply get_llm_config_keys, reach_call, reach_call, reach_init.
Defined.

(** C6.  In the initial state [get_llm_config()] returns the record with
    temperature 0.7, max_tokens 2048, top_p 0.9, model "gpt-4" and the
    default prompt as system_prompt, and nothing else;
    [get_system_prompt()] returns that same default prompt. *)
Theorem initial_config :
  returned_record init_store =
    Some (<["temperature" := VFloat 0.7]>
         (<["max_tokens" := VInt 2048]>
         (<["top_p" := VFloat 0.9]>
         (<["model" := VStr "gpt-4"]>
         {[ "system_prompt" := VStr DEFAULT_SYSTEM_PROMPT ]})))) ∧
  get_system_prompt init_store
    = (Returned (VStr DEFAULT_SYSTEM_PROMPT), init_store).
Proof. split; [vm_compute; reflexivity|reflexivity]. Qed.

(** C7.  In every reachable store, [update_llm_config({"temperature": 0.2})]
    returns [True], and [get_llm_config()] then reports temperature 0.2
    and, for max_tokens, top_p, model and every other key, what it
    reported before. *)
Theorem update_temperature_frame (s : store) :
  reachable s →
  ∃ s' rec rec',
    update_llm_config (VDict {[ "temperature" := VFloat 0.2 ]}) s
      = (Returned true, s') ∧
    returned_record s = Some rec ∧
    returned_record s' = Some rec' ∧
    rec' !! "temperature" = Some (VFloat 0.2) ∧
    rec' !! "max_tokens" = rec !! "max_tokens" ∧
    rec' !! "top_p" = rec !! "top_p" ∧
    rec' !! "model" = rec !! "model" ∧
    (∀ k, k ≠ "temperature" → rec' !! k = rec !! k).
Proof.
  intros Hs.
  set (u := {[ "temperature" := VFloat 0.2 ]} : pydict).
  set (s' := put_all (map_to_list u) s).
  assert (∀ k, params s' !! k =
               match params s !! k with
               | Some old => Some (default old (u !! k))
               | None => None
               end) as Hlook.
  { intros k. unfold s'. rewrite put_all_lookup by apply NoDup_fst_map_to_list.
    by rewrite list_to_map_to_list. }
  assert (current_system_prompt s' = current_system_prompt s) as Hprompt
    by apply put_all_prompt.
  assert (∀ k, k ≠ "temperature" →
    (params s' ∪ {[ "system_prompt" := current_system_prompt s' ]}) !! k =
    (params s ∪ {[ "system_prompt" := current_system_prompt s ]}) !! k) as Hrest.
  { intros k Hk. rewrite !lookup_union, Hprompt, Hlook.
    unfold u. rewrite lookup_singleton_ne by done.
    by destruct (params s !! k). }
  exists s'. do 2 eexists. rewrite !returned_record_eq.
  split; [apply update_llm_config_dict|].
  do 2 (split; [reflexivity|]).
  split; [|by repeat split; try apply Hrest].
  apply lookup_union_Some_l. rewrite Hlook.
  assert ("temperature" ∈ dom (params s)) as [old ->]%elem_of_dom.
  { rewrite (reachable_param_keys s Hs). unfold param_keys. set_solver. }
  unfold u. by rewrite lookup_singleton_eq.
Qed.

Lemma update_temperature_frame_witness :
  reachable (after (UpdateLlmConfig (VDict {[ "model" := VStr "gpt-4o" ]}))
               init_store) ∧
  ∃ s' rec rec',
    update_llm_config (VDict {[ "temperature" := VFloat 0.2 ]})
      (after (UpdateLlmConfig (VDict {[ "model" := VStr "gpt-4o" ]})) init_store)
      = (Returned true, s') ∧
    returned_record
      (after (UpdateLlmConfig (VDict {[ "model" := VStr "gpt-4o" ]})) init_store)
      = Some rec ∧
    returned_record s' = Some rec' ∧
    rec' !! "temperature" = Some (VFloat 0.2) ∧
    rec' !! "max_tokens" = rec !! "max_tokens" ∧
    rec' !! "top_p" = rec !! "top_p" ∧
    rec' !! "model" = rec !! "model" ∧
    (∀ k, k ≠ "temperature" → rec' !! k = rec !! k).
Proof.
  split.
  - apply reach_call, reach_init.
  - apply update_temperature_frame, reach_call, reach_init.
Defined.

(** C8, as the code has it.  For every store and every argument, the two
    readers return a value and [set_system_prompt] and [reset_to_default]
    return [True]; [update_llm_config] returns [True] for every argument
    that is a mapping.  (For an argument without an [items] method the call
    raises: see [update_llm_config_rejects_none].) *)
Theorem calls_succeed (s : store) (p : value) (u : pydict) :
  (∃ v, get_system_prompt s = (Returned v, s)) ∧
  (∃ r s', get_llm_config s = (Returned r, s')) ∧
  (∃ s', set_system_prompt p s = (Returned true, s')) ∧
  (∃ s', update_llm_config (VDict u) s = (Returned true, s')) ∧
  (∃ s', reset_to_default s = (Returned true, s')).
Proof.
  repeat split; try (by eexists); try (by do 2 eexists).
  eexists. apply update_llm_config_dict.
Qed.

(** C8, as stated, fails: [update_llm_config(None)] raises
    [AttributeError] ([None] has no [items]) and returns nothing. *)
Lemma update_llm_config_rejects_none :
  update_llm_config VNone init_store = (Raised AttributeError, init_store).
Proof. reflexivity. Qed.

(** C10.  For every store, [set_system_prompt] and [reset_to_default]
    leave the heap and the [llm_config] global, hence every model
    parameter, as they were, and [update_llm_config], whatever its
    argument, leaves the stored prompt as it was. *)
Theorem cross_field_frame (s : store) (p u : value) :
  (heap (set_system_prompt p s).2 = heap s ∧
   llm_config (set_system_prompt p s).2 = llm_config s ∧
   params (set_system_prompt p s).2 = params s) ∧
  (heap (reset_to_default s).2 = heap s ∧
   llm_config (reset_to_default s).2 = llm_config s ∧
   params (reset_to_default s).2 = params s) ∧
  current_system_prompt (update_llm_config u s).2 = current_system_prompt s.
Proof.
  repeat split.
  rewrite update_llm_config_state.
  destruct (dict_of u s); [apply put_all_prompt|done].
Qed.

(** ** Returned records are shallow copies *)




Lemma after_objects c s : objects (after c s) = objects s.
Proof.
  destruct c; cbn [after]; try done.
  rewrite update_llm_config_state.
  destruct (dict_of _ _); [apply put_all_objects|done].
Qed.

Lemma run_objects cs s : objects (run cs s) = objects s.
Proof.
  revert s. induction cs as [|c cs IH]; intros s; [done|].
  cbn. unfold run in IH. by rewrite IH, after_objects.
Qed.











(** * Further properties of the module *)

(** ** Stores, up to equality *)

Lemma wf_params_lookup s :
  wf_store s → heap s !! llm_config s = Some (params s).
Proof.
  intros [d Hd]. unfold params, deref.
  by rewrite (lookup_total_correct _ _ _ Hd).
Qed.

(** A well-formed store is its prompt, its global, its parameters, its
    other dict objects and the callers' objects. *)
Lemma wf_store_eq s s' :
  wf_store s → wf_store s' →
  current_system_prompt s = current_system_prompt s' →
  llm_config s = llm_config s' →
  params s = params s' →
  (∀ l, l ≠ llm_config s → heap s !! l = heap s' !! l) →
  objects s = objects s' →
  s = s'.
Proof.
  intros Hwf Hwf' Hp Hl Hc Hother Ho.
  apply wf_params_lookup in Hwf, Hwf'.
  destruct s as [h p l o], s' as [h' p' l' o']. cbn in *. subst p' l' o'.
  f_equal. apply map_eq. intros i.
  destruct (decide (i = l)) as [->|Hne]; [by rewrite Hwf, Hwf', Hc|by apply Hother].
Qed.

Lemma put_known_id kv s :
  wf_store s → params s !! kv.1 = Some kv.2 → put_known kv s = s.
Proof.
  intros Hwf Hkv. unfold put_known. case_bool_decide; [|done].
  rewrite (insert_id (params s)) by done.
  rewrite insert_id by by apply wf_params_lookup.
  by destruct s.
Qed.

Lemma put_all_id kvs s :
  wf_store s →
  (∀ kv, kv ∈ kvs → params s !! kv.1 = Some kv.2 ∨ kv.1 ∉ dom (params s)) →
  put_all kvs s = s.
Proof.
  intros Hwf. induction kvs as [|kv kvs IH]; intros Hkvs; [done|].
  rewrite put_all_cons.
  assert (put_known kv s = s) as ->.
  { destruct (Hkvs kv) as [?|?]; [by left|by apply put_known_id|].
    by apply put_known_unmatched. }
  apply IH. intros kv' Hin. apply Hkvs. by right.
Qed.

Lemma put_all_map_lookup (u : pydict) s k :
  params (put_all (map_to_list u) s) !! k =
  match params s !! k with
  | Some old => Some (default old (u !! k))
  | None => None
  end.
Proof.
  rewrite put_all_lookup by apply NoDup_fst_map_to_list.
  by rewrite list_to_map_to_list.
Qed.

(** Two updates in a row amount to one, with the later dict taking
    precedence on common keys. *)
Lemma put_all_compose (u1 u2 : pydict) s :
  wf_store s →
  put_all (map_to_list u2) (put_all (map_to_list u1) s)
  = put_all (map_to_list (u2 ∪ u1)) s.
Proof.
  intros Hwf. apply wf_store_eq.
  - by do 2 apply put_all_wf.
  - by apply put_all_wf.
  - by rewrite !put_all_prompt.
  - by rewrite !put_all_llm_config.
  - apply map_eq. intros k. rewrite !put_all_map_lookup, lookup_union.
    destruct (params s !! k); [|done].
    by destruct (u2 !! k), (u1 !! k).
  - intros l. rewrite !put_all_llm_config. intros Hl.
    rewrite !put_all_heap_other; by rewrite ?put_all_llm_config.
  - by rewrite !put_all_objects.
Qed.

Lemma after_heap_old c s l :
  l ≠ llm_config s → is_Some (heap s !! l) →
  heap (after c s) !! l = heap s !! l.
Proof.
  intros Hne Hl. destruct c; cbn [after]; try done.
  - rewrite get_llm_config_eq. cbn. apply lookup_insert_ne.
    intros Heq. destruct Hl as [d Hd].
    by rewrite <-Heq, get_llm_config_fresh in Hd.
  - rewrite update_llm_config_state.
    destruct (dict_of _ _); [by apply put_all_heap_other|done].
Qed.

Lemma run_heap_old cs s l :
  l ≠ llm_config s → is_Some (heap s !! l) →
  heap (run cs s) !! l = heap s !! l.
Proof.
  revert s. induction cs as [|c cs IH]; intros s Hne Hl; [done|].
  cbn. unfold run in IH.
  rewrite IH; [by apply after_heap_old|by rewrite after_llm_config|].
  by rewrite after_heap_old.
Qed.

Lemma params_init_store : params init_store = initial_llm_config.
Proof. unfold params, deref. cbn. apply lookup_total_singleton_eq. Qed.

Lemma last_update_snoc k cs c :
  last_update k (cs ++ [c]) =
  match c with
  | UpdateLlmConfig (VDict u) =>
      match u !! k with Some v => Some v | None => last_update k cs end
  | _ => last_update k cs
  end.
Proof. unfold last_update. by rewrite foldl_app. Qed.

Lemma last_prompt_snoc p cs c :
  last_prompt p (cs ++ [c]) =
  match c with
  | SetSystemPrompt q => q
  | ResetToDefault => VStr DEFAULT_SYSTEM_PROMPT
  | _ => last_prompt p cs
  end.
Proof. unfold last_prompt. by rewrite foldl_app. Qed.

(** ** Reading back *)

(** X2.  Handing the record [get_llm_config] returned back to
    [update_llm_config] changes nothing: the parameters are rewritten with
    their own values and the [system_prompt] entry is not a parameter. *)
Theorem update_with_returned_record (s : store) :
  wf_store s →
  ∃ r s1 rec,
    get_llm_config s = (Returned r, s1) ∧
    heap s1 !! r = Some rec ∧
    update_llm_config (VDict rec) s1 = (Returned true, s1).
Proof.
  intros Hwf. do 3 eexists. split; [apply get_llm_config_eq|].
  split; [apply lookup_insert_eq|].
  rewrite update_llm_config_dict. f_equal.
  apply put_all_id; [by apply (get_llm_config_wf s)|].
  intros [k v] Hin%elem_of_map_to_list. cbn [fst snd].
  pose proof (get_llm_config_params s Hwf) as Hpar.
  rewrite get_llm_config_eq in Hpar. cbn [snd] in Hpar. rewrite Hpar.
  apply lookup_union_Some_raw in Hin as [Hin|[Hnone _]]; [by left|].
  right. by apply not_elem_of_dom.
Qed.

Lemma update_with_returned_record_witness :
  wf_store (after (SetSystemPrompt (VStr "Be brief.")) init_store) ∧
  ∃ r s1 rec,
    get_llm_config (after (SetSystemPrompt (VStr "Be brief.")) init_store)
      = (Returned r, s1) ∧
    heap s1 !! r = Some rec ∧
    update_llm_config (VDict rec) s1 = (Returned true, s1).
Proof.
  split.
  - apply after_wf, initial_store_wf.
  - apply update_with_returned_record, after_wf, initial_store_wf.
Defined.

(** X3.  In every reachable store the two readers agree: the
    [system_prompt] entry of the record [get_llm_config] returns is the
    value [get_system_prompt] returns, and every other entry is the
    parameter of that name. *)
Theorem readers_agree (s : store) :
  reachable s →
  ∃ p rec,
    get_system_prompt s = (Returned p, s) ∧
    returned_record s = Some rec ∧
    rec !! "system_prompt" = Some p ∧
    (∀ k, k ≠ "system_prompt" → rec !! k = params s !! k).
Proof.
  intros Hs. do 2 eexists. split; [reflexivity|].
  split; [apply returned_record_eq|]. split.
  - rewrite lookup_union_r; [apply lookup_singleton_eq|].
    apply not_elem_of_dom. rewrite (reachable_param_keys s Hs).
    apply (bool_decide_eq_false_1 ("system_prompt" ∈ param_keys)).
    vm_compute. reflexivity.
  - intros k Hk. rewrite lookup_union, lookup_singleton_ne by done.
    by destruct (params s !! k).
Qed.

Lemma readers_agree_witness :
  reachable (after (SetSystemPrompt (VInt 7)) init_store) ∧
  ∃ p rec,
    get_system_prompt (after (SetSystemPrompt (VInt 7)) init_store)
      = (Returned p, after (SetSystemPrompt (VInt 7)) init_store) ∧
    returned_record (after (SetSystemPrompt (VInt 7)) init_store) = Some rec ∧
    rec !! "system_prompt" = Some p ∧
    (∀ k, k ≠ "system_prompt" →
          rec !! k = params (after (SetSystemPrompt (VInt 7)) init_store) !! k).
Proof.
  split.
  - apply reach_call, reach_init.
  - apply readers_agree, reach_call, reach_init.
Defined.

(** ** Records already handed out *)

(** X4.  A record returned by [get_llm_config] is a snapshot that later
    calls never touch: whatever calls follow, updates included, the
    object still holds the prompt and the parameters of the moment it was
    built. *)
Theorem returned_record_is_stable (s : store) (cs : list call) :
  wf_store s →
  ∃ r s1,
    get_llm_config s = (Returned r, s1) ∧
    heap (run cs s1) !! r =
      Some (params s ∪ {[ "system_prompt" := current_system_prompt s ]}).
Proof.
  intros Hwf. do 2 eexists. split; [apply get_llm_config_eq|].
  assert (fresh (dom (heap s)) ≠ llm_config s) as Hne.
  { intros Heq. destruct Hwf as [d Hd].
    by rewrite <-Heq, get_llm_config_fresh in Hd. }
  rewrite run_heap_old; cbn; rewrite ?lookup_insert_eq; by eauto.
Qed.

Lemma returned_record_is_stable_witness :
  wf_store init_store ∧
  ∃ r s1,
    get_llm_config init_store = (Returned r, s1) ∧
    heap (run [UpdateLlmConfig (VDict {[ "model" := VStr "gpt-4o" ]});
               SetSystemPrompt (VStr "Be brief."); GetLlmConfig] s1) !! r =
      Some (params init_store ∪
            {[ "system_prompt" := current_system_prompt init_store ]}).
Proof.
  split; [apply initial_store_wf|].
  apply (returned_record_is_stable init_store), initial_store_wf.
Defined.

(** X5.  [get_llm_config] only reads the configuration: it leaves the
    prompt, the parameters and every object that existed untouched, and
    two calls in a row return two different objects with the same
    contents. *)
Theorem get_llm_config_twice (s : store) :
  wf_store s →
  ∃ r1 s1 r2 s2,
    get_llm_config s = (Returned r1, s1) ∧
    get_llm_config s1 = (Returned r2, s2) ∧
    r1 ≠ r2 ∧
    deref r1 s2 = deref r2 s2 ∧
    current_system_prompt s2 = current_system_prompt s ∧
    params s2 = params s ∧
    (∀ l, is_Some (heap s !! l) → heap s2 !! l = heap s !! l).
Proof.
  intros Hwf. do 4 eexists.
  split; [apply get_llm_config_eq|]. split; [apply get_llm_config_eq|].
  set (r1 := fresh (dom (heap s))).
  set (s1 := with_heap _ s).
  set (r2 := fresh (dom (heap s1))).
  assert (s1 = (get_llm_config s).2) as Hs1 by done.
  assert (params s1 = params s) as Hpar
    by (rewrite Hs1; by apply get_llm_config_params).
  assert (wf_store s1) as Hwf1 by (rewrite Hs1; by apply get_llm_config_wf).
  assert (heap s1 !! r1 = Some (params s ∪
            {[ "system_prompt" := current_system_prompt s ]})) as Hr1
    by apply lookup_insert_eq.
  assert (r2 ≠ r1) as Hne.
  { intros Heq. unfold r2 in Heq.
    by rewrite <-Heq, get_llm_config_fresh in Hr1. }
  repeat split.
  - done.
  - unfold deref. cbn [heap with_heap]. rewrite lookup_total_insert_eq.
    rewrite lookup_total_insert_ne by done.
    rewrite (lookup_total_correct _ _ _ Hr1).
    by rewrite Hpar.
  - change (params (get_llm_config s1).2 = params s).
    by rewrite get_llm_config_params.
  - intros l [d Hd].
    assert (r1 ≠ l) as Hl1.
    { intros Heq. unfold r1 in Heq.
      by rewrite <-Heq, get_llm_config_fresh in Hd. }
    assert (heap s1 !! l = Some d) as Hd1
      by (cbn; by rewrite lookup_insert_ne).
    assert (r2 ≠ l) as Hl2.
    { intros Heq. unfold r2 in Heq.
      by rewrite <-Heq, get_llm_config_fresh in Hd1. }
    cbn. by rewrite !lookup_insert_ne.
Qed.

Lemma get_llm_config_twice_witness :
  wf_store init_store ∧
  ∃ r1 s1 r2 s2,
    get_llm_config init_store = (Returned r1, s1) ∧
    get_llm_config s1 = (Returned r2, s2) ∧
    r1 ≠ r2 ∧
    deref r1 s2 = deref r2 s2 ∧
    current_system_prompt s2 = current_system_prompt init_store ∧
    params s2 = params init_store ∧
    (∀ l, is_Some (heap init_store !! l) → heap s2 !! l = heap init_store !! l).
Proof.
  split; [apply initial_store_wf|].
  apply get_llm_config_twice, initial_store_wf.
Defined.

(** ** Updates, composed *)

(** X6.  Applying the same update twice is the same as applying it
    once. *)
Theorem update_llm_config_idempotent (u : pydict) (s : store) :
  wf_store s →
  (exec update_llm_config (VDict u) in update_llm_config (VDict u)) s
  = update_llm_config (VDict u) s.
Proof.
  intros Hwf. unfold bind. rewrite update_llm_config_dict.
  rewrite update_llm_config_dict. f_equal.
  apply put_all_id; [by apply put_all_wf|].
  intros [k v] Hin%elem_of_map_to_list. cbn [fst snd].
  rewrite put_all_map_lookup, Hin.
  destruct (params s !! k) as [old|] eqn:Hold; [by left|].
  right. rewrite put_all_dom. by apply not_elem_of_dom.
Qed.

Lemma update_llm_config_idempotent_witness :
  wf_store init_store ∧
  (exec update_llm_config (VDict {[ "top_p" := VFloat 0.5; "seed" := VInt 1 ]}) in
   update_llm_config (VDict {[ "top_p" := VFloat 0.5; "seed" := VInt 1 ]})) init_store
  = update_llm_config (VDict {[ "top_p" := VFloat 0.5; "seed" := VInt 1 ]}) init_store.
Proof.
  split; [apply initial_store_wf|].
  apply update_llm_config_idempotent, initial_store_wf.
Defined.

(** X7.  Two updates in a row are one update with the merged dict, in
    which the second dict wins on the keys both name. *)
Theorem update_llm_config_compose (u1 u2 : pydict) (s : store) :
  wf_store s →
  (exec update_llm_config (VDict u1) in update_llm_config (VDict u2)) s
  = update_llm_config (VDict (u2 ∪ u1)) s.
Proof.
  intros Hwf. unfold bind. rewrite !update_llm_config_dict.
  by rewrite put_all_compose.
Qed.

Lemma update_llm_config_compose_witness :
  wf_store init_store ∧
  (exec update_llm_config (VDict {[ "top_p" := VFloat 0.5; "model" := VStr "a" ]}) in
   update_llm_config (VDict {[ "model" := VStr "b" ]})) init_store
  = update_llm_config
      (VDict ({[ "model" := VStr "b" ]} ∪
              {[ "top_p" := VFloat 0.5; "model" := VStr "a" ]})) init_store.
Proof.
  split; [apply initial_store_wf|].
  apply update_llm_config_compose, initial_store_wf.
Defined.

(** X8.  Updates that name different keys commute. *)
Theorem update_llm_config_commute (u1 u2 : pydict) (s : store) :
  wf_store s → dom u1 ## dom u2 →
  (exec update_llm_config (VDict u1) in update_llm_config (VDict u2)) s
  = (exec update_llm_config (VDict u2) in update_llm_config (VDict u1)) s.
Proof.
  intros Hwf Hdisj. unfold bind. rewrite !update_llm_config_dict.
  rewrite !put_all_compose by done. do 3 f_equal.
  apply map_union_comm. by apply map_disjoint_dom.
Qed.

Lemma update_llm_config_commute_witness :
  (wf_store init_store ∧
   dom ({[ "top_p" := VFloat 0.5 ]} : pydict) ## dom ({[ "model" := VStr "b" ]} : pydict)) ∧
  (exec update_llm_config (VDict {[ "top_p" := VFloat 0.5 ]}) in
   update_llm_config (VDict {[ "model" := VStr "b" ]})) init_store
  = (exec update_llm_config (VDict {[ "model" := VStr "b" ]}) in
     update_llm_config (VDict {[ "top_p" := VFloat 0.5 ]})) init_store.
Proof.
  assert (dom ({[ "top_p" := VFloat 0.5 ]} : pydict)
          ## dom ({[ "model" := VStr "b" ]} : pydict)) as Hdisj.
  { rewrite !dom_singleton_L. by apply disjoint_singleton_l, not_elem_of_singleton. }
  split; [split; [apply initial_store_wf|exact Hdisj]|].
  exact (update_llm_config_commute _ _ init_store initial_store_wf Hdisj).
Defined.

(** X9.  The loop of [update_llm_config] gives the same store in whatever
    order it meets the items, as long as their keys are distinct, as the
    keys of a dict are. *)
Theorem update_loop_any_order (kvs kvs' : list (string * value)) (s : store) :
  wf_store s → NoDup kvs.*1 → kvs ≡ₚ kvs' →
  for_each kvs update_entry s = for_each kvs' update_entry s.
Proof.
  intros Hwf Hnd Hperm. rewrite !for_each_update_entry. f_equal.
  change (put_all kvs s = put_all kvs' s). apply wf_store_eq.
  - by apply put_all_wf.
  - by apply put_all_wf.
  - by rewrite !put_all_prompt.
  - by rewrite !put_all_llm_config.
  - by apply put_all_any_order.
  - intros l. rewrite put_all_llm_config. intros Hl.
    by rewrite !put_all_heap_other.
  - by rewrite !put_all_objects.
Qed.

Lemma update_loop_any_order_witness :
  (wf_store init_store ∧
   NoDup [("model", VStr "b"); ("top_p", VFloat 0.5)].*1 ∧
   [("model", VStr "b"); ("top_p", VFloat 0.5)]
     ≡ₚ [("top_p", VFloat 0.5); ("model", VStr "b")]) ∧
  for_each [("model", VStr "b"); ("top_p", VFloat 0.5)] update_entry init_store
  = for_each [("top_p", VFloat 0.5); ("model", VStr "b")] update_entry init_store.
Proof.
  assert (NoDup [("model", VStr "b"); ("top_p", VFloat 0.5)].*1) as Hnd.
  { cbn. apply NoDup_cons. split; [|apply NoDup_singleton].
    by intros ?%list_elem_of_singleton. }
  split; [split; [apply initial_store_wf|split; [exact Hnd|apply perm_swap]]|].
  exact (update_loop_any_order _ _ init_store initial_store_wf Hnd (perm_swap _ _ _)).
Defined.

(** ** The store as a function of its history *)

(** X10.  After any calls from the initial state, each parameter holds
    the value of the last [update_llm_config] that named it, and its
    initial value if none did; reads, prompt changes and failed updates in
    between play no part, and no other key ever holds a value. *)
Theorem params_last_write_wins (cs : list call) (k : string) :
  params (run cs init_store) !! k =
  match initial_llm_config !! k with
  | Some d => Some (default d (last_update k cs))
  | None => None
  end.
Proof.
  induction cs as [|c cs IH] using rev_ind.
  { change (run [] init_store) with init_store.
    rewrite params_init_store. by destruct (initial_llm_config !! k). }
  rewrite run_snoc, last_update_snoc.
  destruct c as [|p| |v|]; cbn [after]; try exact IH.
  - rewrite get_llm_config_params; [exact IH|apply run_wf, initial_store_wf].
  - rewrite update_llm_config_state.
    destruct v; cbn [dict_of]; try exact IH.
    + rewrite put_all_map_lookup, IH.
      destruct (initial_llm_config !! k); [|done].
      by destruct (d !! k).
    + rewrite run_objects. cbn [objects init_store]. rewrite lookup_empty.
      exact IH.
Qed.

(** X11.  From any store, the prompt after any calls is what the last
    [set_system_prompt] or [reset_to_default] among them wrote, and the
    prompt before them if there was none: reads and updates, failed or
    not, never change it. *)
Theorem prompt_last_write_wins (cs : list call) (s : store) :
  get_system_prompt (run cs s)
  = (Returned (last_prompt (current_system_prompt s) cs), run cs s).
Proof.
  rewrite get_system_prompt_eq. f_equal. f_equal.
  induction cs as [|c cs IH] using rev_ind; [done|].
  rewrite run_snoc, last_prompt_snoc.
  destruct c as [|p| |v|]; cbn [after]; try done.
  rewrite update_llm_config_state.
  destruct (dict_of _ _); [by rewrite put_all_prompt|exact IH].
Qed.
